(** * ModularSensors: the rain counter driver and the sensor lifecycle

    A shallow embedding of [src/sensors/RainCounterI2C.cpp] and of the
    constants and constructors of [src/sensors/DecagonCTD.h], together with
    the parts of the [Sensor] / [Variable] base classes that those files
    call but that live in other files of the library.

    Conventions.
    - [uint8_t], [int16_t], [uint32_t] are [Z] with the wrap-around written
      out ([to_uint8], [to_int16], [MeasurementTimer.elapsedSince]).
    - [float] is modelled by the exact rationals [Q]; rounding of the
      binary format is abstracted.  The constant -9999 and every 16-bit
      integer are exactly representable, so comparisons against them are
      the same in both.  Rounding keeps the sign of a product and whether
      it is zero, so what is stated about the rain reading is kept to
      that: its sign, and whether it is the sentinel; never the rounded
      value itself.
    - C++ member functions that may write the object take the object and
      return the new one ([f : T -> result * T]). *)

From Stdlib Require Import ZArith QArith Qround Lia String Ascii Bool.
From stdpp Require Import base list.

Local Open Scope Z_scope.

(** ** Fixed-width integers *)

Definition to_uint8 (z : Z) : Z := z mod 256.
(** Conversion to [int16_t]: reduction modulo 2^16 into [-32768, 32767]. *)
Definition to_int16 (z : Z) : Z := (z + 32768) mod 65536 - 32768.

(** ** The failure sentinel *)

Definition SENTINEL : Z := -9999.
Definition sentinelQ : Q := inject_Z SENTINEL.
Definition isSentinel (v : Q) : bool := Qeq_bool v sentinelQ.
Definition Qlt_bool (a b : Q) : bool := negb (Qle_bool b a).

(** ** The Arduino core: [Wire] and [String]

    These belong to the Arduino core, not to this library.  [Wire] is the
    I2C master: [requestFrom] fills the receive buffer with what the slave
    sent (nothing when the slave does not answer) and returns the number
    of bytes received; [read] pops one byte, or returns -1 on an empty
    buffer. *)
Module Wire.

(** [slave] is what the addressed device puts on the bus. *)
Definition requestFrom (slave : list Z) (quantity : nat) : Z * list Z :=
  let rx := take quantity (to_uint8 <$> slave) in
  (Z.of_nat (length rx), rx).

Definition read (rx : list Z) : Z * list Z :=
  match rx with
  | [] => (-1, [])
  | b :: rest => (b, rest)
  end.

End Wire.

Module WString.

Definition HEX : Z := 16.

(** One digit of [utoa]: '0'..'9', then 'a'.. (lowercase). *)
Definition digitChar (d : Z) : ascii :=
  if d <? 10 then ascii_of_nat (Z.to_nat (48 + d))
  else ascii_of_nat (Z.to_nat (87 + d)).

(** Digits of [val] in [base], least significant first, as [utoa]
    produces them before reversing. *)
Fixpoint utoa_digits (fuel : nat) (val base : Z) : list Z :=
  match fuel with
  | O => []
  | S fuel' =>
      (val mod base) ::
      (if val / base =? 0 then [] else utoa_digits fuel' (val / base) base)
  end.

(** [String(unsigned char value, unsigned char base)]: the buffer holds
    [8 * sizeof(unsigned char)] digits. *)
Definition ofUChar (value base : Z) : string :=
  string_of_list_ascii (digitChar <$> rev (utoa_digits 8 value base)).

(** Reading a lowercase hexadecimal numeral back. *)
Definition lowerHexValue (c : ascii) : option Z :=
  let n := Z.of_nat (nat_of_ascii c) in
  if (48 <=? n) && (n <=? 57) then Some (n - 48)
  else if (97 <=? n) && (n <=? 102) then Some (n - 87)
  else None.

Fixpoint parseLowerHex_from (acc : Z) (cs : list ascii) : option Z :=
  match cs with
  | [] => Some acc
  | c :: rest =>
      match lowerHexValue c with
      | Some d => parseLowerHex_from (16 * acc + d) rest
      | None => None
      end
  end.

Definition parseLowerHex (s : string) : option Z :=
  match list_ascii_of_string s with
  | [] => None
  | cs => parseLowerHex_from 0 cs
  end.

End WString.

(** ** The accumulators of the [Sensor] base class *)

Module Readings.

(** Modelled from the spec: the arrays of the [Sensor] base class, which
    is not among the sources.  Section 3: [values[]], one accumulator per
    output index, and the parallel count of the readings that
    succeeded. *)
Record t := mk {
  sensorValues : list Q;
  numReadingsCompleted : list nat;
}.

(** Modelled from the spec: [Sensor::clearValues] is not among the
    sources.  Section 3: the entries hold the failure sentinel while no
    reading has completed; the accumulators are reset at the start of a
    cycle. *)
Definition clearValues (n : nat) : t :=
  {| sensorValues := replicate n sentinelQ;
     numReadingsCompleted := replicate n 0%nat |}.

(** The count of index [i]; an index outside the array has none. *)
Definition successCount (r : t) (i : nat) : nat :=
  default 0%nat (numReadingsCompleted r !! i).

(** Modelled from the spec: [Sensor::verifyAndAddMeasurementResult] is
    called by the driver but defined in the base class, which is not
    among the sources.  Section 4.2 step 6: a raw reading either
    succeeds (added into [values[index]], success counter incremented)
    or fails (contributes nothing, counter untouched, other indices
    untouched); section 6: a failed raw reading is marked by the failure
    sentinel.  Since an entry holds the sentinel until its first
    success (section 3), the first success replaces it and later ones
    add to it.  An index outside the arrays writes nothing. *)
Definition verifyAndAddMeasurementResult
    (resultNumber : nat) (resultValue : Q) (r : t) : t :=
  if isSentinel resultValue then r
  else
    let first := Nat.eqb (successCount r resultNumber) 0 in
    {| sensorValues :=
         alter (fun acc => if first then resultValue
                           else (acc + resultValue)%Q)
               resultNumber (sensorValues r);
       numReadingsCompleted := alter S resultNumber (numReadingsCompleted r) |}.

(** Modelled from the spec: the averaging step of the base class is not
    among the sources.  Section 4.2 step 8: final result per index =
    accumulated sum / achieved success count, the failure sentinel when
    that count is 0. *)
Definition averageOne (acc : Q) (n : nat) : Q :=
  match n with
  | O => sentinelQ
  | S _ => (acc / inject_Z (Z.of_nat n))%Q
  end.

(** Modelled from the spec: section 4.2 step 8 applied to every index. *)
Definition averageMeasurements (r : t) : t :=
  {| sensorValues := zip_with averageOne (sensorValues r) (numReadingsCompleted r);
     numReadingsCompleted := numReadingsCompleted r |}.

End Readings.

(** ** [RainCounterI2C] (src/sensors/RainCounterI2C.cpp) *)

Module RainCounterI2C.

(** The object: the fields of the [Sensor] base class that the
    constructor and the driver touch, and the driver's own two. *)
Record t := mk {
  _sensorName : string;
  _numReturnedValues : nat;
  _warmUpTime_ms : Z;
  _stabilizationTime_ms : Z;
  _measurementTime_ms : Z;
  _powerPin : Z;
  _dataPin : Z;
  _measurementsToAverage : Z;
  _sensorStatus : Z;                 (* uint8_t bit field *)
  _millisMeasurementRequested : Z;   (* uint32_t *)
  readings : Readings.t;
  _i2cAddressHex : Z;                (* uint8_t *)
  _rainPerTip : Q;                   (* float *)
}.

Section Driver.

(** The [BUCKET_*] defines of RainCounterI2C.h, which is not among the
    sources. *)
Variable BUCKET_NUM_VARIABLES : nat.
Variables BUCKET_WARM_UP_TIME_MS BUCKET_STABILIZATION_TIME_MS
          BUCKET_MEASUREMENT_TIME_MS : Z.
Variables BUCKET_RAIN_VAR_NUM BUCKET_TIPS_VAR_NUM : nat.

(** RainCounterI2C.cpp:16-22.  The base-class constructor, which is not
    among the sources, is taken to start with an empty status, a zero
    timestamp and cleared values. *)
Definition RainCounterI2C (i2cAddressHex : Z) (rainPerTip : Q) : t :=
  {| _sensorName := "RainCounterI2C";
     _numReturnedValues := BUCKET_NUM_VARIABLES;
     _warmUpTime_ms := BUCKET_WARM_UP_TIME_MS;
     _stabilizationTime_ms := BUCKET_STABILIZATION_TIME_MS;
     _measurementTime_ms := BUCKET_MEASUREMENT_TIME_MS;
     _powerPin := -1;
     _dataPin := -1;
     _measurementsToAverage := 1;
     _sensorStatus := 0;
     _millisMeasurementRequested := 0;
     readings := Readings.clearValues BUCKET_NUM_VARIABLES;
     _i2cAddressHex := to_uint8 i2cAddressHex;
     _rainPerTip := rainPerTip |}.

(** RainCounterI2C.cpp:27-31. *)
Definition getSensorLocation (s : t) : string * t :=
  let address := "I2C_0x"%string in
  let address := (address ++ WString.ofUChar (_i2cAddressHex s) WString.HEX)%string in
  (address, s).

(** RainCounterI2C.cpp:50-74: the raw readings [(rain, tips)] of one
    attempt. *)
Definition readTips (slave : list Z) (rainPerTip : Q) : Q * Z :=
  let rain := sentinelQ in
  let tips := SENTINEL in
  let '(received, rx) := Wire.requestFrom slave 2 in
  if negb (received =? 0) then
    let '(r1, rx) := Wire.read rx in
    let Byte1 := to_uint8 r1 in
    let '(r2, rx) := Wire.read rx in
    let Byte2 := to_uint8 r2 in
    let tips := to_int16 (Z.lor (Z.shiftl Byte2 8) Byte1) in
    let rain := (inject_Z tips * rainPerTip)%Q in
    let tips' := if tips <? 0 then SENTINEL else tips in
    let rain' := if Qlt_bool rain 0 then sentinelQ else rain in
    (rain', tips')
  else (rain, tips).

(** RainCounterI2C.cpp:79-82. *)
Definition clearMeasurementRequest (s : t) : t :=
  {| _sensorName := _sensorName s;
     _numReturnedValues := _numReturnedValues s;
     _warmUpTime_ms := _warmUpTime_ms s;
     _stabilizationTime_ms := _stabilizationTime_ms s;
     _measurementTime_ms := _measurementTime_ms s;
     _powerPin := _powerPin s;
     _dataPin := _dataPin s;
     _measurementsToAverage := _measurementsToAverage s;
     _sensorStatus := Z.land (_sensorStatus s) 159 (* 0b10011111 *);
     _millisMeasurementRequested := 0;
     readings := readings s;
     _i2cAddressHex := _i2cAddressHex s;
     _rainPerTip := _rainPerTip s |}.

Definition withReadings (r : Readings.t) (s : t) : t :=
  {| _sensorName := _sensorName s;
     _numReturnedValues := _numReturnedValues s;
     _warmUpTime_ms := _warmUpTime_ms s;
     _stabilizationTime_ms := _stabilizationTime_ms s;
     _measurementTime_ms := _measurementTime_ms s;
     _powerPin := _powerPin s;
     _dataPin := _dataPin s;
     _measurementsToAverage := _measurementsToAverage s;
     _sensorStatus := _sensorStatus s;
     _millisMeasurementRequested := _millisMeasurementRequested s;
     readings := r;
     _i2cAddressHex := _i2cAddressHex s;
     _rainPerTip := _rainPerTip s |}.

(** RainCounterI2C.cpp:48-86. *)
Definition addSingleMeasurementResult (slave : list Z) (s : t) : bool * t :=
  let '(rain, tips) := readTips slave (_rainPerTip s) in
  let s := withReadings
             (Readings.verifyAndAddMeasurementResult
                BUCKET_RAIN_VAR_NUM rain (readings s)) s in
  let s := withReadings
             (Readings.verifyAndAddMeasurementResult
                BUCKET_TIPS_VAR_NUM (inject_Z tips) (readings s)) s in
  (true, clearMeasurementRequest s).

End Driver.

End RainCounterI2C.

(** ** MeasurementTimer *)

Module MeasurementTimer.

(** [now - start] on [uint32_t] timestamps: unsigned modular
    subtraction. *)
Definition elapsedSince (startTimestamp now : Z) : Z :=
  if startTimestamp <=? now then now - startTimestamp
  else now + 2 ^ 32 - startTimestamp.

(** Modelled from the spec: the timer gate is not among the sources.
    Section 4.1: true iff [startTimestamp] is set (not the unset
    sentinel, here [None]) and [now - startTimestamp >= requiredDuration]
    under unsigned modular subtraction. *)
Definition hasElapsed (startTimestamp : option Z) (requiredDuration now : Z) : bool :=
  match startTimestamp with
  | None => false
  | Some start => requiredDuration <=? elapsedSince start now
  end.

End MeasurementTimer.

(** ** The generic sensor lifecycle *)

Module Lifecycle.

(** Modelled from the spec: the states of section 4.2; [Idle] is the
    empty mask. *)
Inductive StatusFlag :=
| Powered | WakeRequested | WarmedUp | StabilizationStarted | Stabilized
| MeasurementRequested | MeasurementComplete | Errored.

(** Modelled from the spec: the status is a bit mask (section 3).  The
    spec fixes no bit positions: the flags are numbered in the order in
    which section 4.2 lists them. *)
Definition flagBit (f : StatusFlag) : Z :=
  match f with
  | Powered => 0 | WakeRequested => 1 | WarmedUp => 2
  | StabilizationStarted => 3 | Stabilized => 4
  | MeasurementRequested => 5 | MeasurementComplete => 6 | Errored => 7
  end.

Definition Idle : Z := 0.
Definition hasFlag (st : Z) (f : StatusFlag) : bool := Z.testbit st (flagBit f).
Definition setFlag (f : StatusFlag) (st : Z) : Z := Z.setbit st (flagBit f).
Definition clearFlag (f : StatusFlag) (st : Z) : Z := Z.clearbit st (flagBit f).

(** Modelled from the spec: the [Sensor] base class is not among the
    sources; the record is the data model of section 3. *)
Record Sensor := mkSensor {
  name : string;
  powerPin : option Z;
  numReturnedValues : nat;
  warmUpTime : Z;
  stabilizationTime : Z;
  measurementTime : Z;
  measurementsToAverage : nat;
  status : Z;
  readings : Readings.t;
  measurementStartTime : option Z;
}.

Definition withStatus (st : Z) (s : Sensor) : Sensor :=
  mkSensor (name s) (powerPin s) (numReturnedValues s) (warmUpTime s)
    (stabilizationTime s) (measurementTime s) (measurementsToAverage s)
    st (readings s) (measurementStartTime s).

Definition withReadings (r : Readings.t) (s : Sensor) : Sensor :=
  mkSensor (name s) (powerPin s) (numReturnedValues s) (warmUpTime s)
    (stabilizationTime s) (measurementTime s) (measurementsToAverage s)
    (status s) r (measurementStartTime s).

Definition withStartTime (t : option Z) (s : Sensor) : Sensor :=
  mkSensor (name s) (powerPin s) (numReturnedValues s) (warmUpTime s)
    (stabilizationTime s) (measurementTime s) (measurementsToAverage s)
    (status s) (readings s) t.

(** Modelled from the spec: the base-class constructor.  A negative pin
    number means "always powered". *)
Definition newSensor (sensorName : string) (pin : Z) (numValues : nat)
    (warmUp stabilization measurement : Z) (toAverage : nat) : Sensor :=
  {| name := sensorName;
     powerPin := if pin <? 0 then None else Some pin;
     numReturnedValues := numValues;
     warmUpTime := warmUp;
     stabilizationTime := stabilization;
     measurementTime := measurement;
     measurementsToAverage := toAverage;
     status := Idle;
     readings := Readings.clearValues numValues;
     measurementStartTime := None |}.

(** The member functions of section 4.2, steps 1 to 9.  None of them is
    among the sources.  The driver's answers ([performWake],
    [performMeasurementTrigger], [collectRawReadings]) and the clock are
    inputs. *)

(** Modelled from the spec: the accumulators are reset at the start of a
    cycle, not on power-down (step 9). *)
Definition clearValues (s : Sensor) : Sensor :=
  withReadings (Readings.clearValues (numReturnedValues s)) s.

(** Modelled from the spec: step 1.  Sets [Powered], records no
    timestamp; the pin itself belongs to the hardware. *)
Definition powerUp (s : Sensor) : Sensor :=
  withStatus (setFlag Powered (status s)) s.

(** Modelled from the spec: step 2.  A successful wake arms the
    timestamp and sets [WakeRequested]; a failed one sets [Errored]. *)
Definition wake (performWake : bool) (now : Z) (s : Sensor) : Sensor :=
  if performWake
  then withStartTime (Some now) (withStatus (setFlag WakeRequested (status s)) s)
  else withStatus (setFlag Errored (status s)) s.

(** Modelled from the spec: step 3, the timer gate against
    [warmUpTime]. *)
Definition isWarmedUp (now : Z) (s : Sensor) : bool :=
  MeasurementTimer.hasElapsed (measurementStartTime s) (warmUpTime s) now.

(** Modelled from the spec: step 4.  A successful trigger rearms the
    timestamp, sets [MeasurementRequested] and clears a prior
    [MeasurementComplete]; the spec names no effect of a failed one. *)
Definition startSingleMeasurement (performMeasurementTrigger : bool) (now : Z)
    (s : Sensor) : Sensor :=
  if performMeasurementTrigger
  then withStartTime (Some now)
         (withStatus (clearFlag MeasurementComplete
                        (setFlag MeasurementRequested (status s))) s)
  else s.

(** Modelled from the spec: step 5, the timer gates against
    [stabilizationTime] and [measurementTime], evaluated only while the
    request flag is set. *)
Definition isStabilized (now : Z) (s : Sensor) : bool :=
  hasFlag (status s) MeasurementRequested &&
  MeasurementTimer.hasElapsed (measurementStartTime s) (stabilizationTime s) now.

Definition isMeasurementComplete (now : Z) (s : Sensor) : bool :=
  hasFlag (status s) MeasurementRequested &&
  MeasurementTimer.hasElapsed (measurementStartTime s) (measurementTime s) now.

(** Modelled from the spec: [collectRawReadings] gives one raw reading
    per output index (section 6), a failed one being the failure
    sentinel; an index the driver did not report counts as failed. *)
Definition rawAt (raw : list Q) (i : nat) : Q := default sentinelQ (raw !! i).

Definition addRawReadings (n : nat) (raw : list Q) (r : Readings.t) : Readings.t :=
  foldl (fun acc i => Readings.verifyAndAddMeasurementResult i (rawAt raw i) acc)
        r (seq 0 n).

(** Modelled from the spec: step 6 of the generic lifecycle (the
    driver-specific override of the rain counter is
    [RainCounterI2C.addSingleMeasurementResult]).  Section 8 (ordering):
    without a requested measurement the call changes nothing. *)
Definition addSingleMeasurementResult (collectRawReadings : list Q) (s : Sensor)
    : bool * Sensor :=
  if hasFlag (status s) MeasurementRequested then
    let r := addRawReadings (numReturnedValues s) collectRawReadings (readings s) in
    let st := setFlag MeasurementComplete
                (clearFlag MeasurementRequested (status s)) in
    (true, withStartTime None (withStatus st (withReadings r s)))
  else (false, s).

(** Modelled from the spec: step 7.  One attempt: the clock, and what
    the driver answers to the trigger and to the collection. *)
Record Attempt := mkAttempt {
  now : Z;
  triggerOk : bool;
  raw : list Q;
}.

(** Steps 4 to 6 once; the scheduler waits for the gates in between,
    which are queries and leave the state alone. *)
Definition measurementRound (a : Attempt) (s : Sensor) : Sensor :=
  snd (addSingleMeasurementResult (raw a)
         (startSingleMeasurement (triggerOk a) (now a) s)).

(** Modelled from the spec: step 7.  The rounds repeat until the success
    counter of every index reaches [measurementsToAverage] or the retry
    budget is used up. *)
Definition targetReached (s : Sensor) : bool :=
  forallb (fun n => Nat.leb (measurementsToAverage s) n)
          (Readings.numReadingsCompleted (readings s)).

Fixpoint averagingRounds (retryBudget : nat) (attempts : list Attempt)
    (s : Sensor) : Sensor :=
  match retryBudget, attempts with
  | S budget, a :: rest =>
      if targetReached s then s
      else averagingRounds budget rest (measurementRound a s)
  | _, _ => s
  end.

(** The attempts that [averagingRounds] actually makes. *)
Fixpoint roundsPerformed (retryBudget : nat) (attempts : list Attempt)
    (s : Sensor) : list Attempt :=
  match retryBudget, attempts with
  | S budget, a :: rest =>
      if targetReached s then []
      else a :: roundsPerformed budget rest (measurementRound a s)
  | _, _ => []
  end.

(** Modelled from the spec: step 8, and section 4.2 (error conditions):
    an index without any successful reading sets [Errored]. *)
Definition averageMeasurements (s : Sensor) : Sensor :=
  let r := readings s in
  let st := if existsb (Nat.eqb 0) (Readings.numReadingsCompleted r)
            then setFlag Errored (status s) else status s in
  withStatus st (withReadings (Readings.averageMeasurements r) s).

(** Modelled from the spec: step 9.  All flags back to [Idle], the
    timestamp cleared, the values kept. *)
Definition powerDown (s : Sensor) : Sensor :=
  withStartTime None (withStatus Idle s).

(** The stored value of output index [i]. *)
Definition value (s : Sensor) (i : nat) : option Q :=
  Readings.sensorValues (readings s) !! i.

(** Modelled from the spec: the scheduler's sequence of section 6 for
    one cycle, up to the averaged result; a failed wake aborts it. *)
Definition averagedResult (performWake : bool) (wakeTime : Z)
    (retryBudget : nat) (attempts : list Attempt) (s : Sensor) : Sensor :=
  let s := wake performWake wakeTime (powerUp (clearValues s)) in
  if hasFlag (status s) Errored then s
  else averageMeasurements (averagingRounds retryBudget attempts s).

(** The same cycle with the power-down that ends it. *)
Definition completeCycle (performWake : bool) (wakeTime : Z)
    (retryBudget : nat) (attempts : list Attempt) (s : Sensor) : Sensor :=
  powerDown (averagedResult performWake wakeTime retryBudget attempts s).

(** The raw readings of index [i] that succeeded, over a list of
    attempts. *)
Definition successAt (i : nat) (a : Attempt) : option Q :=
  if triggerOk a && negb (isSentinel (rawAt (raw a) i))
  then Some (rawAt (raw a) i) else None.

Definition successfulReadings (i : nat) (attempts : list Attempt) : list Q :=
  omap (successAt i) attempts.

Definition sumQ (l : list Q) : Q := foldr Qplus 0%Q l.

Definition meanQ (l : list Q) : Q := (sumQ l / inject_Z (Z.of_nat (length l)))%Q.

End Lifecycle.

(** ** [DecagonCTD] (src/sensors/DecagonCTD.h) *)

Module DecagonCTD.

Definition CTD_NUM_VARIABLES : nat := 3.
Definition CTD_WARM_UP_TIME_MS : Z := 500.
Definition CTD_STABILIZATION_TIME_MS : Z := 0.
Definition CTD_MEASUREMENT_TIME_MS : Z := 500.

Definition CTD_COND_RESOLUTION : nat := 1.
Definition CTD_COND_VAR_NUM : nat := 2.
Definition CTD_COND_VAR_NAME : string := "specificConductance".
Definition CTD_COND_UNIT_NAME : string := "microsiemenPerCentimeter".
Definition CTD_COND_DEFAULT_CODE : string := "CTDcond".

Definition CTD_TEMP_RESOLUTION : nat := 2.
Definition CTD_TEMP_VAR_NUM : nat := 1.
Definition CTD_TEMP_VAR_NAME : string := "temperature".
Definition CTD_TEMP_UNIT_NAME : string := "degreeCelsius".
Definition CTD_TEMP_DEFAULT_CODE : string := "CTDtemp".

Definition CTD_DEPTH_RESOLUTION : nat := 1.
Definition CTD_DEPTH_VAR_NUM : nat := 0.
Definition CTD_DEPTH_VAR_NAME : string := "waterDepth".
Definition CTD_DEPTH_UNIT_NAME : string := "millimeter".
Definition CTD_DEPTH_DEFAULT_CODE : string := "CTDdepth".

(** DecagonCTD.h:187-191.  The SDI-12 address and the data pin belong to
    the transport and are not part of the lifecycle state. *)
Definition DecagonCTD (SDI12address : ascii) (powerPin dataPin : Z)
    (measurementsToAverage : nat) : Lifecycle.Sensor :=
  Lifecycle.newSensor "DecagonCTD" powerPin CTD_NUM_VARIABLES
    CTD_WARM_UP_TIME_MS CTD_STABILIZATION_TIME_MS CTD_MEASUREMENT_TIME_MS
    measurementsToAverage.

End DecagonCTD.

(** ** [Variable] *)

Module VariableBase.

(** Modelled from the spec: the [Variable] base class is not among the
    sources; the record is the data model of section 3.  The parent is a
    reference: an index into the table of sensors, [None] while the
    variable is unbound. *)
Record t := mk {
  parentSensor : option nat;
  variableIndex : nat;
  resolution : nat;
  name : string;
  unit : string;
  shortCode : string;
  externalId : string;
}.

(** Modelled from the spec: the two base-class constructors that the
    sensor headers call, with and without a parent; the external
    identifier defaults to the empty string. *)
Definition bound (parentSense : nat) (varNum resolution : nat)
    (varName varUnit varCode uuid : string) : t :=
  mk (Some parentSense) varNum resolution varName varUnit varCode uuid.

Definition unbound (varNum resolution : nat)
    (varName varUnit varCode : string) : t :=
  mk None varNum resolution varName varUnit varCode "".

(** Modelled from the spec: what a read gives, a number or the
    unbound-usage fault (section 7). *)
Inductive ReadResult :=
| Reading (v : Q)
| UnboundFault.

(** Modelled from the spec: rounding to [resolution] decimal places
    (section 4.3), here to the nearest, halves up. *)
Definition roundTo (resolution : nat) (v : Q) : Q :=
  let scale := inject_Z (10 ^ Z.of_nat resolution) in
  (inject_Z (Qfloor (v * scale + (1 # 2))) / scale)%Q.

(** Modelled from the spec: [Variable::value] is not among the sources.
    Section 4.3: the parent's [values[variableIndex]] rounded to
    [resolution] places, the failure sentinel verbatim when the parent
    has no valid result; section 7: a read of an unbound variable is a
    usage fault, signalled distinctly from the sentinel. *)
Definition value (sensors : list Lifecycle.Sensor) (v : t) : ReadResult :=
  match parentSensor v with
  | None => UnboundFault
  | Some p =>
      match sensors !! p with
      | None => UnboundFault
      | Some s =>
          match Lifecycle.value s (variableIndex v) with
          | None => Reading sentinelQ
          | Some x => if isSentinel x then Reading x
                      else Reading (roundTo (resolution v) x)
          end
      end
  end.

(** DecagonCTD.h:239-252, 281-294, 323-336. *)
Definition DecagonCTD_Cond (parentSense : nat) (uuid varCode : string) : t :=
  bound parentSense DecagonCTD.CTD_COND_VAR_NUM DecagonCTD.CTD_COND_RESOLUTION
    DecagonCTD.CTD_COND_VAR_NAME DecagonCTD.CTD_COND_UNIT_NAME varCode uuid.

Definition DecagonCTD_Cond_default : t :=
  unbound DecagonCTD.CTD_COND_VAR_NUM DecagonCTD.CTD_COND_RESOLUTION
    DecagonCTD.CTD_COND_VAR_NAME DecagonCTD.CTD_COND_UNIT_NAME
    DecagonCTD.CTD_COND_DEFAULT_CODE.

Definition DecagonCTD_Temp (parentSense : nat) (uuid varCode : string) : t :=
  bound parentSense DecagonCTD.CTD_TEMP_VAR_NUM DecagonCTD.CTD_TEMP_RESOLUTION
    DecagonCTD.CTD_TEMP_VAR_NAME DecagonCTD.CTD_TEMP_UNIT_NAME varCode uuid.

Definition DecagonCTD_Temp_default : t :=
  unbound DecagonCTD.CTD_TEMP_VAR_NUM DecagonCTD.CTD_TEMP_RESOLUTION
    DecagonCTD.CTD_TEMP_VAR_NAME DecagonCTD.CTD_TEMP_UNIT_NAME
    DecagonCTD.CTD_TEMP_DEFAULT_CODE.

Definition DecagonCTD_Depth (parentSense : nat) (uuid varCode : string) : t :=
  bound parentSense DecagonCTD.CTD_DEPTH_VAR_NUM DecagonCTD.CTD_DEPTH_RESOLUTION
    DecagonCTD.CTD_DEPTH_VAR_NAME DecagonCTD.CTD_DEPTH_UNIT_NAME varCode uuid.

Definition DecagonCTD_Depth_default : t :=
  unbound DecagonCTD.CTD_DEPTH_VAR_NUM DecagonCTD.CTD_DEPTH_RESOLUTION
    DecagonCTD.CTD_DEPTH_VAR_NAME DecagonCTD.CTD_DEPTH_UNIT_NAME
    DecagonCTD.CTD_DEPTH_DEFAULT_CODE.

End VariableBase.

(** ** Auxiliary notions for the proofs *)

(** The accumulator and the success count of one output index. *)
Definition slot (r : Readings.t) (i : nat) : option (Q * nat) :=
  match Readings.sensorValues r !! i, Readings.numReadingsCompleted r !! i with
  | Some acc, Some n => Some (acc, n)
  | _, _ => None
  end.

Definition slotAdd (v : Q) (p : Q * nat) : Q * nat :=
  (if Nat.eqb (snd p) 0 then v else (fst p + v)%Q, S (snd p)).

Definition slotStep (v : Q) (p : Q * nat) : Q * nat :=
  if isSentinel v then p else slotAdd v p.

Definition roundStep (i : nat) (a : Lifecycle.Attempt) (p : Q * nat) : Q * nat :=
  match Lifecycle.successAt i a with
  | Some v => slotAdd v p
  | None => p
  end.

Definition isLowerHexDigit (c : ascii) : bool :=
  match WString.lowerHexValue c with Some _ => true | None => false end.

Definition hexRoundTrip (n : nat) : bool :=
  let a := Z.of_nat n in
  let s := WString.ofUChar a WString.HEX in
  match WString.parseLowerHex s with
  | Some v => (v =? a) && forallb isLowerHexDigit (list_ascii_of_string s)
  | None => false
  end.

(** The clamping of RainCounterI2C.cpp:62-68, as a function of the raw
    16-bit count. *)
Definition clampReadings (tips : Z) (rainPerTip : Q) : Q * Z :=
  (if Qlt_bool (inject_Z tips * rainPerTip) 0 then sentinelQ
   else (inject_Z tips * rainPerTip)%Q,
   if tips <? 0 then SENTINEL else tips).

(** The raw count of an answered request whose first byte is [b]: when
    only one byte arrived, the second [Wire.read] returns -1, which is 255
    as a [uint8_t]. *)
Definition rawCount (b : Z) (rest : list Z) : Z :=
  let Byte1 := to_uint8 b in
  let Byte2 := match rest with [] => 255 | b2 :: _ => to_uint8 b2 end in
  to_int16 (Byte2 * 256 + Byte1).

(** Successive calls of [addSingleMeasurementResult], one per answer of
    the slave. *)
Definition measureAll (RAIN TIPS : nat) (responses : list (list Z))
    (s : RainCounterI2C.t) : RainCounterI2C.t :=
  foldl (fun acc slave =>
           snd (RainCounterI2C.addSingleMeasurementResult RAIN TIPS slave acc))
        s responses.

(** ** Sanity checks of the definitions *)

Example ofUChar_examples :
  WString.ofUChar 8 WString.HEX = "8"%string /\
  WString.ofUChar 171 WString.HEX = "ab"%string /\
  WString.ofUChar 0 WString.HEX = "0"%string /\
  WString.ofUChar 255 WString.HEX = "ff"%string.
Proof. repeat split. Qed.

Example readTips_examples :
  RainCounterI2C.readTips [5; 0] (1 # 5) = ((5 # 5)%Q, 5) /\
  RainCounterI2C.readTips [255; 127] (1 # 5) = ((32767 # 5)%Q, 32767) /\
  RainCounterI2C.readTips [0; 128] (1 # 5) = (sentinelQ, SENTINEL) /\
  RainCounterI2C.readTips [] (1 # 5) = (sentinelQ, SENTINEL).
Proof. repeat split. Qed.

Example roundTo_example :
  (VariableBase.roundTo 3 (712345 # 100000) == 7123 # 1000)%Q.
Proof. vm_compute. reflexivity. Qed.

Example hasElapsed_unset :
  MeasurementTimer.hasElapsed None 0 1000 = false.
Proof. reflexivity. Qed.

(** * Properties of the rain counter driver *)

Section RainCounterFacts.

Import RainCounterI2C.

Lemma land_shift_bytes (b1 b2 : Z) :
  0 <= b1 < 256 -> Z.land (Z.shiftl b2 8) b1 = 0.
Proof.
  intros Hb1. apply Z.bits_inj'; intros n Hn.
  rewrite Z.land_spec, Z.bits_0.
  destruct (Z.lt_ge_cases n 8) as [Hlt | Hge].
  - rewrite Z.shiftl_spec_low by lia. reflexivity.
  - destruct (Z.eq_dec b1 0) as [-> | Hnz].
    + rewrite Z.bits_0. apply andb_false_r.
    + rewrite (Z.bits_above_log2 b1 n), andb_false_r; [ reflexivity | lia | ].
      apply Z.lt_le_trans with 8; [ apply Z.log2_lt_pow2; lia | lia ].
Qed.

(** [(Byte2 << 8) | Byte1] is [Byte2 * 256 + Byte1]: the two operands
    share no bit. *)
Lemma lor_shift_bytes (b1 b2 : Z) :
  0 <= b1 < 256 -> Z.lor (Z.shiftl b2 8) b1 = b2 * 256 + b1.
Proof.
  intros Hb1.
  rewrite <- Z.lxor_lor by (apply land_shift_bytes; lia).
  rewrite <- Z.add_nocarry_lxor by (apply land_shift_bytes; lia).
  rewrite Z.shiftl_mul_pow2 by lia. reflexivity.
Qed.

Lemma to_uint8_id (b : Z) : 0 <= b < 256 -> to_uint8 b = b.
Proof. intros; unfold to_uint8; apply Z.mod_small; lia. Qed.

Lemma to_uint8_range (z : Z) : 0 <= to_uint8 z < 256.
Proof. unfold to_uint8; apply Z.mod_pos_bound; lia. Qed.

Lemma to_int16_range (z : Z) : -32768 <= to_int16 z < 32768.
Proof.
  unfold to_int16.
  pose proof (Z.mod_pos_bound (z + 32768) 65536 ltac:(lia)); lia.
Qed.

Lemma Qlt_bool_true (a b : Q) : (a < b)%Q -> Qlt_bool a b = true.
Proof.
  intros H; unfold Qlt_bool.
  destruct (Qle_bool b a) eqn:E; [ | reflexivity ].
  apply Qle_bool_iff in E. exfalso. exact (Qlt_not_le _ _ H E).
Qed.

Lemma Qmult_neg_pos (z : Z) (q : Q) :
  z < 0 -> (0 < q)%Q -> (inject_Z z * q < 0)%Q.
Proof.
  destruct q as [n d]; unfold Qlt; cbn; intros Hz Hq. nia.
Qed.

Lemma Qlt_bool_false (a b : Q) : (b <= a)%Q -> Qlt_bool a b = false.
Proof.
  intros H. unfold Qlt_bool. apply negb_false_iff, Qle_bool_iff. exact H.
Qed.

Lemma Qmult_nonneg_nonneg (z : Z) (q : Q) :
  0 <= z -> (0 <= q)%Q -> (0 <= inject_Z z * q)%Q.
Proof. destruct q as [n d]; unfold Qle; cbn; intros Hz Hq. nia. Qed.

(** A non-negative rational is not the sentinel. *)
Lemma nonneg_not_sentinel (q : Q) : (0 <= q)%Q -> q <> sentinelQ.
Proof.
  intros H E. rewrite E in H. unfold Qle, sentinelQ, SENTINEL in H; cbn in H. lia.
Qed.

(** What [readTips] computes when the slave answers. *)
Lemma readTips_two_bytes (b1 b2 : Z) (rest : list Z) (rainPerTip : Q) :
  0 <= b1 < 256 -> 0 <= b2 < 256 ->
  let tips := to_int16 (b2 * 256 + b1) in
  let rain := (inject_Z tips * rainPerTip)%Q in
  readTips (b1 :: b2 :: rest) rainPerTip =
    (if Qlt_bool rain 0 then sentinelQ else rain,
     if tips <? 0 then SENTINEL else tips).
Proof.
  intros H1 H2; unfold readTips; cbn [Wire.requestFrom Wire.read fmap list_fmap take length].
  rewrite !to_uint8_id by (rewrite ?to_uint8_id; lia).
  change (negb (Z.of_nat 2 =? 0)) with true; cbv iota.
  rewrite lor_shift_bytes by lia. reflexivity.
Qed.


Lemma readTips_no_answer (rainPerTip : Q) :
  readTips [] rainPerTip = (sentinelQ, SENTINEL).
Proof. reflexivity. Qed.

Lemma addSingleMeasurementResult_unfold (RAIN TIPS : nat) (slave : list Z) (s : t) :
  addSingleMeasurementResult RAIN TIPS slave s =
    (true,
     clearMeasurementRequest
       (withReadings
          (Readings.verifyAndAddMeasurementResult TIPS
             (inject_Z (snd (readTips slave (_rainPerTip s))))
             (Readings.verifyAndAddMeasurementResult RAIN
                (fst (readTips slave (_rainPerTip s))) (readings s))) s)).
Proof.
  unfold addSingleMeasurementResult.
  destruct (readTips slave (_rainPerTip s)) as [rain tips]; reflexivity.
Qed.

(** C10.  The two received bytes are combined into the signed 16-bit
    value of [Byte2 * 256 + Byte1], and that value decides the readings.
    When [Byte2 < 128] it is the count itself, which is the tips
    reading, and the rain reading is valid for a positive coefficient.
    When [Byte2 >= 128] it is negative: the tips reading is the failure
    sentinel -9999, and so is the rain reading whenever
    [rainPerTip > 0].  The tips reading is never a count of 32768 or
    more. *)
Theorem C10_high_byte_is_failure
    (Byte1 Byte2 : Z) (rest : list Z) (rainPerTip : Q) :
  0 <= Byte1 < 256 -> 0 <= Byte2 < 256 ->
  let tips := to_int16 (Z.lor (Z.shiftl Byte2 8) Byte1) in
  let reading := readTips (Byte1 :: Byte2 :: rest) rainPerTip in
  tips = to_int16 (Byte2 * 256 + Byte1) /\
  snd reading = (if tips <? 0 then SENTINEL else tips) /\
  (Byte2 < 128 ->
     tips = Byte2 * 256 + Byte1 /\
     snd reading = Byte2 * 256 + Byte1 /\
     ((0 < rainPerTip)%Q -> fst reading <> sentinelQ)) /\
  (128 <= Byte2 ->
     tips = Byte2 * 256 + Byte1 - 65536 /\ tips < 0 /\
     snd reading = SENTINEL /\
     ((0 < rainPerTip)%Q -> fst reading = sentinelQ)) /\
  (snd reading = SENTINEL \/ 0 <= snd reading < 32768).
Proof.
  intros H1 H2 tips reading.
  assert (Etips : tips = to_int16 (Byte2 * 256 + Byte1))
    by (unfold tips; rewrite lor_shift_bytes by lia; reflexivity).
  assert (Eread := readTips_two_bytes Byte1 Byte2 rest rainPerTip H1 H2).
  cbv zeta in Eread. fold reading in Eread. rewrite <- Etips in Eread.
  split; [ exact Etips | ].
  split; [ rewrite Eread; reflexivity | ].
  split; [ | split ].
  - intros Hlow.
    assert (Eval : tips = Byte2 * 256 + Byte1).
    { rewrite Etips; unfold to_int16. rewrite Z.mod_small by lia. lia. }
    split; [ exact Eval | split ].
    + rewrite Eread; cbn [snd].
      destruct (Z.ltb_spec tips 0); [ lia | exact Eval ].
    + intros Hpos.
      assert (Hq : (0 <= inject_Z tips * rainPerTip)%Q)
        by (apply Qmult_nonneg_nonneg; [ lia | apply Qlt_le_weak; exact Hpos ]).
      rewrite Eread; cbn [fst]. rewrite Qlt_bool_false by exact Hq.
      apply nonneg_not_sentinel. exact Hq.
  - intros Hhigh.
    assert (Eval : tips = Byte2 * 256 + Byte1 - 65536).
    { rewrite Etips; unfold to_int16.
      replace (Byte2 * 256 + Byte1 + 32768)
        with (Byte2 * 256 + Byte1 - 32768 + 1 * 65536) by lia.
      rewrite Z.mod_add by lia. rewrite Z.mod_small by lia. lia. }
    assert (Hneg : tips < 0) by lia.
    repeat split; [ exact Eval | exact Hneg | | ].
    + rewrite Eread; cbn [snd].
      destruct (Z.ltb_spec tips 0); [ reflexivity | lia ].
    + intros Hpos. rewrite Eread; cbn [fst].
      rewrite Qlt_bool_true; [ reflexivity | ].
      apply Qmult_neg_pos; assumption.
  - rewrite Eread; cbn [snd].
    pose proof (to_int16_range (Byte2 * 256 + Byte1)) as Hr.
    rewrite <- Etips in Hr.
    destruct (Z.ltb_spec tips 0); [ left; reflexivity | right; lia ].
Qed.

(** Bytes 0x00, 0x80 (a raw count of 32768) and bytes 0x39, 0x30 (a
    count of 12345), with 0.2 mm per tip. *)
Lemma C10_witness :
  (to_int16 (Z.lor (Z.shiftl 128 8) 0) = -32768 /\
   snd (readTips [0; 128] (1 # 5)) = SENTINEL /\
   fst (readTips [0; 128] (1 # 5)) = sentinelQ) /\
  (to_int16 (Z.lor (Z.shiftl 48 8) 57) = 12345 /\
   snd (readTips [57; 48] (1 # 5)) = 12345 /\
   fst (readTips [57; 48] (1 # 5)) <> sentinelQ).
Proof.
  split.
  - destruct (C10_high_byte_is_failure 0 128 [] (1 # 5)) as (_ & _ & _ & Hhigh & _);
      [ lia | lia | ].
    destruct Hhigh as (Hval & _ & Htips & Hrain); [ lia | ].
    split; [ exact Hval | split; [ exact Htips | apply Hrain; reflexivity ] ].
  - destruct (C10_high_byte_is_failure 57 48 [] (1 # 5)) as (_ & _ & Hlow & _);
      [ lia | lia | ].
    destruct Hlow as (Hval & Htips & Hrain); [ lia | ].
    split; [ exact Hval | split; [ exact Htips | apply Hrain; reflexivity ] ].
Defined.

(** C4.  When [requestFrom] receives no byte, the call still completes
    and returns true, and both output indices are handed the failure
    sentinel -9999 as their raw reading. *)
Theorem C4_no_bytes_received (RAIN TIPS : nat) (s : t) :
  readTips [] (_rainPerTip s) = (sentinelQ, SENTINEL) /\
  fst (addSingleMeasurementResult RAIN TIPS [] s) = true /\
  snd (addSingleMeasurementResult RAIN TIPS [] s) =
    clearMeasurementRequest
      (withReadings
         (Readings.verifyAndAddMeasurementResult TIPS (inject_Z (-9999))
            (Readings.verifyAndAddMeasurementResult RAIN (inject_Z (-9999))
               (readings s))) s).
Proof.
  rewrite addSingleMeasurementResult_unfold, readTips_no_answer.
  repeat split.
Qed.

Lemma land_159_bit (st b : Z) :
  Z.testbit (Z.land st 159) b =
    Z.testbit st b && Z.testbit 159 b.
Proof. apply Z.land_spec. Qed.

(** C9.  The call rewrites the status as [status & 0b10011111]: bits 5
    and 6 are cleared, bits 0 to 4 and bit 7 keep their values.  Besides
    the per-index accumulators it writes one more field, the
    measurement-request timestamp, which becomes 0. *)
Theorem C9_frame (RAIN TIPS : nat) (slave : list Z) (s : t) :
  let s' := snd (addSingleMeasurementResult RAIN TIPS slave s) in
  _sensorStatus s' = Z.land (_sensorStatus s) 159 /\
  Forall (fun b => Z.testbit (_sensorStatus s') b = Z.testbit (_sensorStatus s) b)
         [0; 1; 2; 3; 4; 7] /\
  Forall (fun b => Z.testbit (_sensorStatus s') b = false) [5; 6] /\
  _millisMeasurementRequested s' = 0 /\
  readings s' =
    Readings.verifyAndAddMeasurementResult TIPS
      (inject_Z (snd (readTips slave (_rainPerTip s))))
      (Readings.verifyAndAddMeasurementResult RAIN
         (fst (readTips slave (_rainPerTip s))) (readings s)) /\
  (_sensorName s', _numReturnedValues s', _warmUpTime_ms s',
   _stabilizationTime_ms s', _measurementTime_ms s', _powerPin s', _dataPin s',
   _measurementsToAverage s', _i2cAddressHex s', _rainPerTip s')
  = (_sensorName s, _numReturnedValues s, _warmUpTime_ms s,
     _stabilizationTime_ms s, _measurementTime_ms s, _powerPin s, _dataPin s,
     _measurementsToAverage s, _i2cAddressHex s, _rainPerTip s).
Proof.
  intros s'. subst s'. rewrite addSingleMeasurementResult_unfold.
  cbn [snd clearMeasurementRequest withReadings _sensorStatus
       _millisMeasurementRequested _sensorName _numReturnedValues
       _warmUpTime_ms _stabilizationTime_ms _measurementTime_ms _powerPin
       _dataPin _measurementsToAverage _i2cAddressHex _rainPerTip readings].
  split; [ reflexivity | ].
  split; [ repeat constructor; rewrite land_159_bit; cbn; apply andb_true_r | ].
  split; [ repeat constructor; rewrite land_159_bit; cbn; apply andb_false_r | ].
  split; [ reflexivity | split; reflexivity ].
Qed.

(** The driver feeds the generic lifecycle: with rain at index 0 and
    tips at index 1, the accumulators after the call are those of
    [Lifecycle.addRawReadings] on the two raw readings. *)
Lemma rainCounter_addRawReadings (slave : list Z) (s : t) :
  readings (snd (addSingleMeasurementResult 0 1 slave s)) =
    Lifecycle.addRawReadings 2
      [fst (readTips slave (_rainPerTip s));
       inject_Z (snd (readTips slave (_rainPerTip s)))]
      (readings s).
Proof. rewrite addSingleMeasurementResult_unfold. reflexivity. Qed.

(** C3, as amended.  Whatever the slave answers, the call clears status
    bits 5 and 6 (the measurement-request bits) and the
    measurement-request timestamp; it raises no status flag: no bit is
    set afterwards that was not set before. *)
Theorem C3_request_cleared (RAIN TIPS : nat) (slave : list Z) (s : t) :
  let s' := snd (addSingleMeasurementResult RAIN TIPS slave s) in
  Z.testbit (_sensorStatus s') 5 = false /\
  Z.testbit (_sensorStatus s') 6 = false /\
  _millisMeasurementRequested s' = 0 /\
  Z.ldiff (_sensorStatus s') (_sensorStatus s) = 0.
Proof.
  intros s'. subst s'. rewrite addSingleMeasurementResult_unfold.
  cbn [snd clearMeasurementRequest withReadings _sensorStatus
       _millisMeasurementRequested].
  repeat split.
  - rewrite land_159_bit; cbn; apply andb_false_r.
  - rewrite land_159_bit; cbn; apply andb_false_r.
  - apply Z.bits_inj'; intros n _.
    rewrite Z.ldiff_spec, Z.land_spec, Z.bits_0.
    destruct (Z.testbit (_sensorStatus s) n); [ | reflexivity ].
    cbn; apply andb_false_r.
Qed.

(** C3, as stated, fails.  A counter with an empty status that receives
    a valid count of 5 tips ends the call with an empty status: no flag,
    whichever bit would stand for "measurement complete", is set.  A
    counter in the middle of a cycle (bits 0 to 6 set) ends it with bits
    0 to 4: bits 5 and 6 are cleared and nothing is raised. *)
Lemma C3_counterexample :
  let idle := mk "RainCounterI2C" 2 0 0 0 (-1) (-1) 1 0 0
                 (Readings.clearValues 2) 8 (1 # 5) in
  let busy := mk "RainCounterI2C" 2 0 0 0 (-1) (-1) 1 127 1000
                 (Readings.clearValues 2) 8 (1 # 5) in
  readTips [5; 0] (1 # 5) = ((5 # 5)%Q, 5) /\
  _sensorStatus (snd (addSingleMeasurementResult 0 1 [5; 0] idle)) = 0 /\
  ~ (exists completeBit : Z,
       Z.testbit (_sensorStatus (snd (addSingleMeasurementResult 0 1 [5; 0] idle)))
                 completeBit = true) /\
  _sensorStatus (snd (addSingleMeasurementResult 0 1 [5; 0] busy)) = 31.
Proof.
  cbv zeta. split; [ reflexivity | ]. split; [ reflexivity | ].
  split; [ | reflexivity ].
  intros [b Hb]. rewrite addSingleMeasurementResult_unfold in Hb.
  cbn [snd clearMeasurementRequest withReadings _sensorStatus] in Hb.
  rewrite Z.land_0_l, Z.bits_0 in Hb. discriminate Hb.
Qed.

Lemma hexRoundTrip_all : List.forallb hexRoundTrip (List.seq 0 256) = true.
Proof. vm_compute. reflexivity. Qed.

Lemma hexRoundTrip_uint8 (a : Z) :
  0 <= a < 256 -> hexRoundTrip (Z.to_nat a) = true.
Proof.
  intros Ha. apply (proj1 (List.forallb_forall _ _) hexRoundTrip_all).
  apply List.in_seq. lia.
Qed.

(** C8.  For every 8-bit address the location is ["I2C_0x"] followed by
    the address in lowercase hexadecimal (digits 0-9 and a-f only, which
    read back as the address), and the object is returned unchanged. *)
Theorem C8_sensor_location (s : t) :
  0 <= _i2cAddressHex s < 256 ->
  let hex := WString.ofUChar (_i2cAddressHex s) 16 in
  getSensorLocation s = (("I2C_0x" ++ hex)%string, s) /\
  WString.parseLowerHex hex = Some (_i2cAddressHex s) /\
  forallb isLowerHexDigit (list_ascii_of_string hex) = true.
Proof.
  intros Ha hex. split; [ reflexivity | ].
  pose proof (hexRoundTrip_uint8 _ Ha) as Hrt.
  unfold hexRoundTrip in Hrt. rewrite Z2Nat.id in Hrt by lia.
  change WString.HEX with 16 in Hrt. fold hex in Hrt.
  destruct (WString.parseLowerHex hex) as [v | ]; [ | discriminate Hrt ].
  apply andb_true_iff in Hrt as [Hv Hd].
  apply Z.eqb_eq in Hv. subst v. split; [ reflexivity | exact Hd ].
Qed.

Lemma C8_witness :
  0 <= _i2cAddressHex (RainCounterI2C 2 0 0 0 8 (1 # 5)) < 256 /\
  getSensorLocation (RainCounterI2C 2 0 0 0 8 (1 # 5)) =
    ("I2C_0x8"%string, RainCounterI2C 2 0 0 0 8 (1 # 5)) /\
  getSensorLocation (RainCounterI2C 2 0 0 0 171 (1 # 5)) =
    ("I2C_0xab"%string, RainCounterI2C 2 0 0 0 171 (1 # 5)).
Proof.
  split; [ vm_compute; split; [ discriminate | reflexivity ] | ].
  split.
  - apply (C8_sensor_location (RainCounterI2C 2 0 0 0 8 (1 # 5))).
    vm_compute; split; [ discriminate | reflexivity ].
  - apply (C8_sensor_location (RainCounterI2C 2 0 0 0 171 (1 # 5))).
    vm_compute; split; [ discriminate | reflexivity ].
Defined.

End RainCounterFacts.

(** * Properties of the timer gate *)

Section TimerFacts.

Import MeasurementTimer.

Lemma elapsedSince_mod (start now : Z) :
  0 <= start < 2 ^ 32 -> 0 <= now < 2 ^ 32 ->
  elapsedSince start now = (now - start) mod 2 ^ 32.
Proof.
  intros Hs Hn; unfold elapsedSince.
  destruct (Z.leb_spec start now).
  - rewrite Z.mod_small by lia. reflexivity.
  - replace (now - start) with (now + 2 ^ 32 - start + (-1) * 2 ^ 32) by lia.
    rewrite Z.mod_add by lia. rewrite Z.mod_small by lia. reflexivity.
Qed.

(** C1.  For a set start timestamp the gate is open exactly when
    [now - start >= requiredDuration] in 32-bit unsigned arithmetic:
    without wrap-around this is the plain difference, after a
    wrap-around of the counter it is [now + 2^32 - start]; the gate is
    open at the exact boundary, and a zero duration is open at once. *)
Theorem C1_hasElapsed (start requiredDuration now : Z) :
  0 <= start < 2 ^ 32 -> 0 <= requiredDuration < 2 ^ 32 -> 0 <= now < 2 ^ 32 ->
  (hasElapsed (Some start) requiredDuration now = true <->
     (now - start) mod 2 ^ 32 >= requiredDuration) /\
  (start <= now ->
     (hasElapsed (Some start) requiredDuration now = true <->
        now - start >= requiredDuration)) /\
  (now < start ->
     (hasElapsed (Some start) requiredDuration now = true <->
        now + 2 ^ 32 - start >= requiredDuration)) /\
  hasElapsed (Some start) requiredDuration
    ((start + requiredDuration) mod 2 ^ 32) = true /\
  hasElapsed (Some start) 0 now = true.
Proof.
  intros Hs Hd Hn.
  assert (Hiff : forall d t, 0 <= t < 2 ^ 32 ->
            (hasElapsed (Some start) d t = true <->
               (t - start) mod 2 ^ 32 >= d)).
  { intros d t Ht. unfold hasElapsed.
    rewrite elapsedSince_mod by assumption. rewrite Z.leb_le. lia. }
  split; [ apply Hiff; assumption | ].
  split; [ intros Hle; rewrite Hiff by assumption;
           rewrite Z.mod_small by lia; reflexivity | ].
  split; [ intros Hlt; rewrite Hiff, <- elapsedSince_mod by assumption;
           unfold elapsedSince;
           destruct (Z.leb_spec start now); [ lia | reflexivity ] | ].
  split.
  - apply Hiff; [ apply Z.mod_pos_bound; lia | ].
    rewrite Zminus_mod_idemp_l.
    replace (start + requiredDuration - start) with requiredDuration by lia.
    rewrite Z.mod_small by lia. lia.
  - apply Hiff; [ assumption | ].
    pose proof (Z.mod_pos_bound (now - start) (2 ^ 32) ltac:(lia)). lia.
Qed.

(** A counter that wrapped between the start and now, at the exact
    boundary: 296 ms before the wrap and 204 ms after it. *)
Lemma C1_witness :
  hasElapsed (Some 4294967000) 500 204 = true /\
  hasElapsed (Some 4294967000) 0 204 = true /\
  hasElapsed (Some 4294967000) 500 ((4294967000 + 500) mod 2 ^ 32) = true.
Proof.
  destruct (C1_hasElapsed 4294967000 500 204) as (_ & _ & Hwrap & Hbound & Hzero);
    [ lia | lia | lia | ].
  split; [ apply Hwrap; lia | split; [ exact Hzero | exact Hbound ] ].
Defined.

End TimerFacts.


(** * Properties of the accumulators *)

Section ReadingsFacts.

Import Readings.

Lemma slot_verify_same (i : nat) (v : Q) (r : t) :
  slot (verifyAndAddMeasurementResult i v r) i = slotStep v <$> slot r i.
Proof.
  unfold verifyAndAddMeasurementResult, slotStep.
  destruct (isSentinel v).
  - destruct (slot r i); reflexivity.
  - unfold slot, successCount, slotAdd; cbn [sensorValues numReadingsCompleted].
    rewrite !list_lookup_alter_eq.
    destruct (sensorValues r !! i) as [acc | ],
             (numReadingsCompleted r !! i) as [n | ]; reflexivity.
Qed.

Lemma slot_verify_other (i j : nat) (v : Q) (r : t) :
  i <> j -> slot (verifyAndAddMeasurementResult j v r) i = slot r i.
Proof.
  intros Hij. unfold verifyAndAddMeasurementResult.
  destruct (isSentinel v); [ reflexivity | ].
  unfold slot; cbn [sensorValues numReadingsCompleted].
  rewrite !list_lookup_alter_ne by congruence. reflexivity.
Qed.

Lemma slot_clearValues (n i : nat) :
  (i < n)%nat -> slot (clearValues n) i = Some (sentinelQ, 0%nat).
Proof.
  intros Hi. unfold slot, clearValues; cbn [sensorValues numReadingsCompleted].
  rewrite !lookup_replicate_2 by exact Hi. reflexivity.
Qed.

Lemma slot_average (r : t) (i : nat) :
  sensorValues (averageMeasurements r) !! i =
    (fun p => averageOne (fst p) (snd p)) <$> slot r i.
Proof.
  unfold averageMeasurements, slot; cbn [sensorValues].
  rewrite lookup_zip_with.
  destruct (sensorValues r !! i) as [acc | ]; [ | reflexivity ].
  destruct (numReadingsCompleted r !! i) as [n | ]; reflexivity.
Qed.

Lemma slot_count (r : t) (i : nat) (acc : Q) (n : nat) :
  slot r i = Some (acc, n) -> numReadingsCompleted r !! i = Some n.
Proof.
  unfold slot.
  destruct (sensorValues r !! i), (numReadingsCompleted r !! i);
    intros H; inversion H; reflexivity.
Qed.

End ReadingsFacts.

(** * Properties of the lifecycle *)

Section LifecycleFacts.

Import Lifecycle.

Lemma hasFlag_setFlag_same (f : StatusFlag) (st : Z) :
  hasFlag (setFlag f st) f = true.
Proof. unfold hasFlag, setFlag. apply Z.setbit_eq. destruct f; cbn; lia. Qed.

Lemma hasFlag_setFlag_other (f g : StatusFlag) (st : Z) :
  flagBit f <> flagBit g -> hasFlag (setFlag f st) g = hasFlag st g.
Proof. intros H. unfold hasFlag, setFlag. apply Z.setbit_neq; [ destruct f; cbn; lia | exact H ]. Qed.

Lemma hasFlag_clearFlag_same (f : StatusFlag) (st : Z) :
  hasFlag (clearFlag f st) f = false.
Proof. unfold hasFlag, clearFlag. apply Z.clearbit_eq. Qed.

Lemma hasFlag_clearFlag_other (f g : StatusFlag) (st : Z) :
  flagBit f <> flagBit g -> hasFlag (clearFlag f st) g = hasFlag st g.
Proof. intros H. unfold hasFlag, clearFlag. apply Z.clearbit_neq. exact H. Qed.

Lemma hasFlag_Idle (f : StatusFlag) : hasFlag Idle f = false.
Proof. unfold hasFlag, Idle. apply Z.bits_0. Qed.

Ltac flag_simpl :=
  repeat first
    [ rewrite hasFlag_setFlag_same
    | rewrite hasFlag_clearFlag_same
    | rewrite hasFlag_Idle
    | rewrite hasFlag_setFlag_other by (cbn; lia)
    | rewrite hasFlag_clearFlag_other by (cbn; lia) ].

(** One index of [addRawReadings]: only its own raw reading counts. *)
Lemma slot_fold_notin (raw : list Q) (l : list nat) (r : Readings.t) (i : nat) :
  i ∉ l ->
  slot (foldl (fun acc k => Readings.verifyAndAddMeasurementResult k (rawAt raw k) acc)
              r l) i = slot r i.
Proof.
  revert r. induction l as [ | k l IH]; intros r Hi; cbn [foldl]; [ reflexivity | ].
  apply not_elem_of_cons in Hi as [Hik Hil].
  rewrite IH by exact Hil. apply slot_verify_other. exact Hik.
Qed.

Lemma slot_addRawReadings (n : nat) (raw : list Q) (r : Readings.t) (i : nat) :
  (i < n)%nat ->
  slot (addRawReadings n raw r) i = slotStep (rawAt raw i) <$> slot r i.
Proof.
  intros Hi. unfold addRawReadings.
  replace n with (i + S (n - S i))%nat by lia.
  rewrite List.seq_app, foldl_app. cbn [List.seq foldl plus].
  rewrite slot_fold_notin; [ | rewrite elem_of_seq; lia ].
  rewrite slot_verify_same.
  rewrite slot_fold_notin; [ | rewrite elem_of_seq; lia ].
  reflexivity.
Qed.

(** The part of the state that one round of steps 4 to 6 keeps. *)
Lemma measurementRound_spec (a : Attempt) (s : Sensor) :
  hasFlag (status s) MeasurementRequested = false ->
  hasFlag (status (measurementRound a s)) MeasurementRequested = false /\
  numReturnedValues (measurementRound a s) = numReturnedValues s /\
  measurementsToAverage (measurementRound a s) = measurementsToAverage s /\
  hasFlag (status (measurementRound a s)) Errored = hasFlag (status s) Errored /\
  hasFlag (status (measurementRound a s)) Powered = hasFlag (status s) Powered /\
  forall i, (i < numReturnedValues s)%nat ->
    slot (readings (measurementRound a s)) i = roundStep i a <$> slot (readings s) i.
Proof.
  intros Hreq. unfold measurementRound, startSingleMeasurement, roundStep, successAt.
  destruct (triggerOk a); cbn [andb].
  - unfold addSingleMeasurementResult.
    cbn [status withStartTime withStatus readings numReturnedValues].
    flag_simpl.
    cbn [snd status withStartTime withStatus withReadings readings
         numReturnedValues measurementsToAverage].
    flag_simpl. repeat split.
    intros i Hi. rewrite slot_addRawReadings by exact Hi.
    unfold slotStep. destruct (isSentinel (rawAt (raw a) i)); cbn [negb];
      destruct (slot (readings s) i); reflexivity.
  - unfold addSingleMeasurementResult. rewrite Hreq. cbn [snd].
    repeat split; [ exact Hreq | ].
    intros i _. destruct (slot (readings s) i); reflexivity.
Qed.

Lemma rounds_spec (done : list Attempt) (s : Sensor) :
  hasFlag (status s) MeasurementRequested = false ->
  let s' := foldl (fun acc a => measurementRound a acc) s done in
  hasFlag (status s') MeasurementRequested = false /\
  numReturnedValues s' = numReturnedValues s /\
  hasFlag (status s') Errored = hasFlag (status s) Errored /\
  hasFlag (status s') Powered = hasFlag (status s) Powered /\
  forall i, (i < numReturnedValues s)%nat ->
    slot (readings s') i =
      (fun p => foldl (fun q a => roundStep i a q) p done) <$> slot (readings s) i.
Proof.
  revert s. induction done as [ | a done IH]; intros s Hreq; cbn [foldl].
  - repeat split; [ exact Hreq | ].
    intros i _. destruct (slot (readings s) i); reflexivity.
  - destruct (measurementRound_spec a s Hreq) as (Hreq' & Hn & _ & Herr & Hpow & Hslot).
    destruct (IH _ Hreq') as (IH1 & IH2 & IH3 & IH4 & IH5).
    repeat split; [ exact IH1 | congruence | congruence | congruence | ].
    intros i Hi. rewrite IH5 by (rewrite Hn; exact Hi).
    rewrite Hslot by exact Hi.
    destruct (slot (readings s) i); reflexivity.
Qed.

Lemma averagingRounds_performed (retryBudget : nat) (attempts : list Attempt) (s : Sensor) :
  averagingRounds retryBudget attempts s =
    foldl (fun acc a => measurementRound a acc) s
          (roundsPerformed retryBudget attempts s).
Proof.
  revert attempts s. induction retryBudget as [ | b IH]; intros attempts s.
  - destruct attempts; reflexivity.
  - destruct attempts as [ | a rest]; [ reflexivity | ].
    cbn [averagingRounds roundsPerformed].
    destruct (targetReached s); [ reflexivity | ].
    cbn [foldl]. apply IH.
Qed.

(** The attempts made are a prefix of the driver's answers, no longer
    than the retry budget. *)
Lemma roundsPerformed_prefix (retryBudget : nat) (attempts : list Attempt) (s : Sensor) :
  roundsPerformed retryBudget attempts s `prefix_of` attempts /\
  (length (roundsPerformed retryBudget attempts s) <= retryBudget)%nat.
Proof.
  revert attempts s. induction retryBudget as [ | b IH]; intros attempts s.
  - destruct attempts; cbn; split; auto using prefix_nil.
  - destruct attempts as [ | a rest]; cbn [roundsPerformed].
    + split; [ apply prefix_nil | cbn; lia ].
    + destruct (targetReached s).
      * split; [ apply prefix_nil | cbn; lia ].
      * destruct (IH rest (measurementRound a s)) as [Hp Hl].
        split; [ apply prefix_cons; exact Hp | cbn; lia ].
Qed.

Lemma roundSteps_successes (i : nat) (done : list Attempt) (p : Q * nat) :
  foldl (fun q a => roundStep i a q) p done =
    foldl (fun q v => slotAdd v q) p (successfulReadings i done).
Proof.
  revert p. induction done as [ | a done IH]; intros p; [ reflexivity | ].
  cbn [foldl]. unfold successfulReadings; cbn [omap list_omap]. unfold roundStep at 2.
  destruct (successAt i a) as [v | ]; cbn [foldl]; apply IH.
Qed.

(** Accumulating a list of successful readings: the count grows by its
    length, the accumulator holds the sum. *)
Lemma slotAdd_sum (l : list Q) (acc : Q) (n : nat) :
  let p := foldl (fun q v => slotAdd v q) (acc, n) l in
  snd p = (n + length l)%nat /\
  (n <> 0%nat -> (fst p == acc + sumQ l)%Q) /\
  (n = 0%nat -> l <> [] -> (fst p == sumQ l)%Q) /\
  (l = [] -> fst p = acc).
Proof.
  revert acc n. induction l as [ | v l IH]; intros acc n; cbn [foldl sumQ foldr length].
  - cbn [fst snd]. repeat split; [ lia | intros _; ring | congruence ].
  - unfold slotAdd at 2; cbn [fst snd].
    destruct (IH (if Nat.eqb n 0 then v else (acc + v)%Q) (S n))
      as (Hcount & Hsum & _ & _).
    repeat split; [ rewrite Hcount; lia | | | discriminate ].
    + intros Hn. rewrite Hsum by lia.
      destruct (Nat.eqb_spec n 0); [ contradiction | ].
      fold (sumQ l). ring.
    + intros -> _. rewrite Hsum by lia. cbn [Nat.eqb].
      fold (sumQ l). reflexivity.
Qed.

(** The averaged value of one index after the rounds of a cycle that
    started from cleared accumulators. *)
Lemma value_after_rounds (done : list Attempt) (s : Sensor) (i : nat) :
  readings s = Readings.clearValues (numReturnedValues s) ->
  hasFlag (status s) MeasurementRequested = false ->
  (i < numReturnedValues s)%nat ->
  let s' := foldl (fun acc a => measurementRound a acc) s done in
  let good := successfulReadings i done in
  Readings.numReadingsCompleted (readings s') !! i = Some (length good) /\
  (good = [] -> value (averageMeasurements s') i = Some sentinelQ) /\
  (good <> [] ->
     exists v, value (averageMeasurements s') i = Some v /\ (v == meanQ good)%Q).
Proof.
  intros Hclear Hreq Hi s' good.
  destruct (rounds_spec done s Hreq) as (_ & _ & _ & _ & Hslot).
  specialize (Hslot i Hi). fold s' in Hslot.
  rewrite Hclear, slot_clearValues in Hslot by exact Hi.
  cbn [fmap option_fmap option_map] in Hslot.
  rewrite roundSteps_successes in Hslot. fold good in Hslot.
  destruct (slotAdd_sum good sentinelQ 0) as (Hcount & _ & Hsum & Hnil).
  cbv zeta in Hcount, Hsum, Hnil.
  destruct (foldl (fun q v => slotAdd v q) (sentinelQ, 0%nat) good) as [acc n] eqn:E.
  cbn [fst snd] in Hcount, Hsum, Hnil. cbn [plus] in Hcount. subst n.
  assert (Hval : value (averageMeasurements s') i =
                 Some (Readings.averageOne acc (length good))).
  { unfold value, averageMeasurements; cbn [readings withStatus withReadings].
    rewrite slot_average, Hslot. reflexivity. }
  split; [ exact (slot_count _ _ _ _ Hslot) | split ].
  - intros Hgood. rewrite Hval, Hgood. reflexivity.
  - intros Hgood. exists (Readings.averageOne acc (length good)).
    split; [ exact Hval | ].
    destruct good as [ | v good']; [ contradiction | ].
    unfold Readings.averageOne, meanQ. cbn [length].
    rewrite Hsum by (reflexivity || discriminate). reflexivity.
Qed.

(** C2.  After the averaging rounds, the final value of an index is the
    sum of its successful raw readings divided by the number of those
    readings: neither [measurementsToAverage] nor the number of attempts
    enters the quotient. *)
Theorem C2_average_over_successes
    (s : Sensor) (retryBudget : nat) (attempts : list Attempt) (i : nat) :
  readings s = Readings.clearValues (numReturnedValues s) ->
  hasFlag (status s) MeasurementRequested = false ->
  (i < numReturnedValues s)%nat ->
  successfulReadings i (roundsPerformed retryBudget attempts s) <> [] ->
  exists v,
    value (averageMeasurements (averagingRounds retryBudget attempts s)) i = Some v /\
    (v == sumQ (successfulReadings i (roundsPerformed retryBudget attempts s)) /
          inject_Z (Z.of_nat
            (length (successfulReadings i (roundsPerformed retryBudget attempts s)))))%Q.
Proof.
  intros Hclear Hreq Hi Hgood.
  rewrite averagingRounds_performed.
  destruct (value_after_rounds (roundsPerformed retryBudget attempts s) s i
              Hclear Hreq Hi) as (_ & _ & Hmean).
  exact (Hmean Hgood).
Qed.

(** With [measurementsToAverage = 3] and the raw readings 10.0, failure,
    20.0 the final value is 15.0. *)
Lemma C2_witness :
  exists v,
    value (averageMeasurements
             (averagingRounds 3
                [mkAttempt 0 true [inject_Z 10];
                 mkAttempt 10 true [sentinelQ];
                 mkAttempt 20 true [inject_Z 20]]
                (newSensor "sensor" (-1) 1 0 0 0 3))) 0 = Some v /\
    (v == 15 # 1)%Q.
Proof.
  destruct (C2_average_over_successes
              (newSensor "sensor" (-1) 1 0 0 0 3) 3
              [mkAttempt 0 true [inject_Z 10];
               mkAttempt 10 true [sentinelQ];
               mkAttempt 20 true [inject_Z 20]] 0)
    as [v [Hv Hmean]].
  - reflexivity.
  - reflexivity.
  - cbn; lia.
  - vm_compute; discriminate.
  - exists v. split; [ exact Hv | ].
    rewrite Hmean. vm_compute. reflexivity.
Defined.

Lemma existsb_zero_lookup (l : list nat) (i : nat) :
  l !! i = Some 0%nat -> existsb (Nat.eqb 0) l = true.
Proof.
  revert i. induction l as [ | n l IH]; intros [ | i] H; cbn in H; try discriminate.
  - inversion H; reflexivity.
  - cbn [existsb]. rewrite (IH i H). apply orb_true_r.
Qed.

(** C5.  In a cycle whose wake succeeds, an index all of whose attempts
    fail within the retry budget ends with the failure sentinel and
    [Errored] is set; every sibling index with at least one successful
    reading has the mean of its successful readings; the power-down that
    ends the cycle returns to [Idle] and keeps the values. *)
Theorem C5_zero_success_index
    (s : Sensor) (wakeTime : Z) (retryBudget : nat) (attempts : list Attempt)
    (i : nat) :
  status s = Idle ->
  (i < numReturnedValues s)%nat ->
  successfulReadings i
    (roundsPerformed retryBudget attempts
       (wake true wakeTime (powerUp (clearValues s)))) = [] ->
  value (averagedResult true wakeTime retryBudget attempts s) i = Some sentinelQ /\
  hasFlag (status (averagedResult true wakeTime retryBudget attempts s)) Errored = true /\
  (forall j, (j < numReturnedValues s)%nat ->
     successfulReadings j
       (roundsPerformed retryBudget attempts
          (wake true wakeTime (powerUp (clearValues s)))) <> [] ->
     exists v,
       value (averagedResult true wakeTime retryBudget attempts s) j = Some v /\
       (v == meanQ (successfulReadings j
                      (roundsPerformed retryBudget attempts
                         (wake true wakeTime (powerUp (clearValues s))))))%Q) /\
  status (completeCycle true wakeTime retryBudget attempts s) = Idle /\
  hasFlag (status (completeCycle true wakeTime retryBudget attempts s)) Powered = false /\
  (forall k, value (completeCycle true wakeTime retryBudget attempts s) k =
             value (averagedResult true wakeTime retryBudget attempts s) k).
Proof.
  intros Hidle Hi Hfail.
  set (s1 := wake true wakeTime (powerUp (clearValues s))) in *.
  assert (Hclear : readings s1 = Readings.clearValues (numReturnedValues s1))
    by reflexivity.
  assert (Hn : numReturnedValues s1 = numReturnedValues s) by reflexivity.
  assert (Hst : status s1 = setFlag WakeRequested (setFlag Powered Idle))
    by (cbn; rewrite Hidle; reflexivity).
  assert (Hreq : hasFlag (status s1) MeasurementRequested = false)
    by (rewrite Hst; reflexivity).
  assert (Herr : hasFlag (status s1) Errored = false)
    by (rewrite Hst; reflexivity).
  assert (Hres : averagedResult true wakeTime retryBudget attempts s =
                 averageMeasurements (averagingRounds retryBudget attempts s1)).
  { unfold averagedResult. fold s1. rewrite Herr. reflexivity. }
  rewrite Hres, averagingRounds_performed.
  set (done := roundsPerformed retryBudget attempts s1) in *.
  split; [ | split; [ | split ] ].
  - destruct (value_after_rounds done s1 i Hclear Hreq) as (_ & Hnil & _);
      [ rewrite Hn; exact Hi | ].
    exact (Hnil Hfail).
  - destruct (value_after_rounds done s1 i Hclear Hreq) as (Hcount & _ & _);
      [ rewrite Hn; exact Hi | ].
    rewrite Hfail in Hcount. cbn [length] in Hcount.
    unfold averageMeasurements; cbn [status withStatus withReadings].
    rewrite (existsb_zero_lookup _ _ Hcount). apply hasFlag_setFlag_same.
  - intros j Hj Hgood.
    destruct (value_after_rounds done s1 j Hclear Hreq) as (_ & _ & Hmean);
      [ rewrite Hn; exact Hj | ].
    exact (Hmean Hgood).
  - unfold completeCycle, powerDown. rewrite Hres, averagingRounds_performed.
    fold done. cbn [status withStartTime withStatus].
    split; [ reflexivity | split; [ reflexivity | intros k; reflexivity ] ].
Qed.

Lemma C5_witness :
  let s := newSensor "sensor" (-1) 2 0 0 0 2 in
  let attempts := [mkAttempt 0 true [sentinelQ; inject_Z 4];
                   mkAttempt 10 true [sentinelQ; inject_Z 6];
                   mkAttempt 20 true [sentinelQ; inject_Z 8]] in
  value (averagedResult true 0 3 attempts s) 0 = Some sentinelQ /\
  hasFlag (status (averagedResult true 0 3 attempts s)) Errored = true /\
  (exists v, value (averagedResult true 0 3 attempts s) 1 = Some v /\ (v == 6 # 1)%Q) /\
  status (completeCycle true 0 3 attempts s) = Idle.
Proof.
  cbv zeta.
  destruct (C5_zero_success_index
              (newSensor "sensor" (-1) 2 0 0 0 2) 0 3
              [mkAttempt 0 true [sentinelQ; inject_Z 4];
               mkAttempt 10 true [sentinelQ; inject_Z 6];
               mkAttempt 20 true [sentinelQ; inject_Z 8]] 0)
    as (Hval & Herr & Hsib & Hidle & _).
  - reflexivity.
  - cbn; lia.
  - vm_compute; reflexivity.
  - split; [ exact Hval | split; [ exact Herr | split; [ | exact Hidle ] ] ].
    destruct (Hsib 1%nat) as [v [Hv Hmean]].
    + cbn; lia.
    + vm_compute; discriminate.
    + exists v. split; [ exact Hv | ]. rewrite Hmean. vm_compute. reflexivity.
Defined.

(** C6.  A Decagon CTD (warm-up 500 ms, stabilization 0 ms, measurement
    500 ms) that averages one measurement: after [powerUp] and [wake] at
    0 it is warmed up at 500 (not yet at 499); a measurement started at
    500 is complete at 1000 and not at 999; the result collected then is,
    after averaging, the single raw value of each index that was read. *)
Theorem C6_ctd_scenario
    (SDI12address : ascii) (powerPin dataPin : Z) (raw : list Q) (i : nat) (v : Q) :
  (i < DecagonCTD.CTD_NUM_VARIABLES)%nat ->
  raw !! i = Some v ->
  isSentinel v = false ->
  let s0 := DecagonCTD.DecagonCTD SDI12address powerPin dataPin 1 in
  let s1 := wake true 0 (powerUp s0) in
  let s2 := startSingleMeasurement true 500 s1 in
  (warmUpTime s0, stabilizationTime s0, measurementTime s0, measurementsToAverage s0)
    = (500, 0, 500, 1%nat) /\
  isWarmedUp 499 s1 = false /\
  isWarmedUp 500 s1 = true /\
  isStabilized 500 s2 = true /\
  isMeasurementComplete 999 s2 = false /\
  isMeasurementComplete 1000 s2 = true /\
  fst (addSingleMeasurementResult raw s2) = true /\
  exists x,
    value (averageMeasurements (snd (addSingleMeasurementResult raw s2))) i = Some x /\
    (x == v)%Q.
Proof.
  intros Hi Hraw Hv s0 s1 s2.
  repeat (split; [ reflexivity | ]).
  destruct (value_after_rounds [mkAttempt 500 true raw] s1 i) as (_ & _ & Hmean);
    [ reflexivity | reflexivity | exact Hi | ].
  assert (Hgood : successfulReadings i [mkAttempt 500 true raw] = [v]).
  { unfold successfulReadings, successAt, rawAt; cbn [omap list_omap triggerOk Lifecycle.raw].
    rewrite Hraw. cbn. rewrite Hv. reflexivity. }
  rewrite Hgood in Hmean. destruct Hmean as [x [Hx Hmean]]; [ discriminate | ].
  exists x. split; [ exact Hx | ].
  rewrite Hmean. unfold meanQ, sumQ; cbn [foldr length].
  change (inject_Z (Z.of_nat 1)) with 1%Q. field.
Qed.

Lemma C6_witness :
  let s0 := DecagonCTD.DecagonCTD "1" 22 7 1 in
  let s1 := wake true 0 (powerUp s0) in
  let s2 := startSingleMeasurement true 500 s1 in
  isWarmedUp 500 s1 = true /\
  isMeasurementComplete 999 s2 = false /\
  isMeasurementComplete 1000 s2 = true /\
  exists x,
    value (averageMeasurements
             (snd (addSingleMeasurementResult
                     [inject_Z 1200; (1875 # 100)%Q; inject_Z 431] s2))) 1 = Some x /\
    (x == 1875 # 100)%Q.
Proof.
  cbv zeta.
  destruct (C6_ctd_scenario "1" 22 7
              [inject_Z 1200; (1875 # 100)%Q; inject_Z 431] 1 (1875 # 100)%Q)
    as (_ & _ & Hwarm & _ & Hnot & Hdone & _ & Hval).
  - unfold DecagonCTD.CTD_NUM_VARIABLES; lia.
  - reflexivity.
  - reflexivity.
  - split; [ exact Hwarm | split; [ exact Hnot | split; [ exact Hdone | exact Hval ] ] ].
Defined.

End LifecycleFacts.

(** * Properties of variables *)

Section VariableFacts.

Import VariableBase.

(** C7.  Reading a variable that was constructed without a parent and
    never attached signals the unbound-usage fault; it is not a reading,
    in particular not the failure sentinel -9999 that a bound variable
    gives for a sensor without a valid result. *)
Theorem C7_unbound_value
    (sensors : list Lifecycle.Sensor) (varNum resolution : nat)
    (varName varUnit varCode : string) :
  value sensors (unbound varNum resolution varName varUnit varCode) = UnboundFault /\
  value sensors DecagonCTD_Cond_default = UnboundFault /\
  value sensors DecagonCTD_Temp_default = UnboundFault /\
  value sensors DecagonCTD_Depth_default = UnboundFault /\
  value sensors DecagonCTD_Cond_default <> Reading sentinelQ /\
  value [DecagonCTD.DecagonCTD "1" 22 7 1] (DecagonCTD_Cond 0 "" "CTDcond")
    = Reading sentinelQ.
Proof.
  repeat (split; [ reflexivity | ]).
  split; [ discriminate | reflexivity ].
Qed.

End VariableFacts.


(** * Further properties of the rain counter driver *)

Section RainCounterReadings.

Import RainCounterI2C.

Lemma to_uint8_idem (z : Z) : to_uint8 (to_uint8 z) = to_uint8 z.
Proof. apply to_uint8_id, to_uint8_range. Qed.

Lemma readTips_answered (b : Z) (rest : list Z) (rainPerTip : Q) :
  readTips (b :: rest) rainPerTip = clampReadings (rawCount b rest) rainPerTip.
Proof.
  unfold readTips, rawCount, clampReadings.
  destruct rest as [ | b2 rest'];
    cbn [Wire.requestFrom Wire.read fmap list_fmap take length].
  - change (negb (Z.of_nat 1 =? 0)) with true; cbv iota.
    change (to_uint8 (-1)) with 255.
    rewrite to_uint8_idem, lor_shift_bytes by apply to_uint8_range.
    reflexivity.
  - change (negb (Z.of_nat 2 =? 0)) with true; cbv iota.
    rewrite !to_uint8_idem, lor_shift_bytes by apply to_uint8_range.
    reflexivity.
Qed.

Lemma rawCount_range (b : Z) (rest : list Z) :
  -32768 <= rawCount b rest < 32768.
Proof. apply to_int16_range. Qed.


Lemma to_int16_high (z : Z) : 32768 <= z < 65536 -> to_int16 z = z - 65536.
Proof.
  intros H. unfold to_int16.
  replace (z + 32768) with (z - 32768 + 1 * 65536) by lia.
  rewrite Z.mod_add by lia. rewrite Z.mod_small by lia. lia.
Qed.


Lemma Qlt_bool_false_inv (a b : Q) : Qlt_bool a b = false -> (b <= a)%Q.
Proof.
  unfold Qlt_bool. intros H. apply negb_false_iff in H.
  apply Qle_bool_iff. exact H.
Qed.



Lemma Qmult_zero_r (z : Z) (q : Q) :
  (q == 0)%Q -> (inject_Z z * q == 0)%Q.
Proof. intros H. rewrite H. ring. Qed.



(** X2.  Whatever the slave sends (nothing, one byte, two or more) and
    whatever the coefficient, the tips reading is -9999 or a count of 0
    to 32767, and the rain reading is -9999 or a value that is not below
    0: the comparison of line 67 lets no other value through. *)
Theorem X2_readings_range (slave : list Z) (rainPerTip : Q) :
  (snd (readTips slave rainPerTip) = SENTINEL \/
   0 <= snd (readTips slave rainPerTip) < 32768) /\
  (fst (readTips slave rainPerTip) = sentinelQ \/
   Qlt_bool (fst (readTips slave rainPerTip)) 0 = false).
Proof.
  destruct slave as [ | b rest].
  - split; left; reflexivity.
  - rewrite readTips_answered. unfold clampReadings; cbn [fst snd].
    pose proof (rawCount_range b rest) as Hr.
    split.
    + destruct (Z.ltb_spec (rawCount b rest) 0); [ left; reflexivity | right; lia ].
    + destruct (Qlt_bool (inject_Z (rawCount b rest) * rainPerTip) 0) eqn:E;
        [ left; reflexivity | right; exact E ].
Qed.

(** X3.  A short answer: when the slave delivers a single byte, the
    missing high byte reads as 255, the count is negative, and both
    readings are -9999 (for a positive coefficient), whatever the byte. *)
Theorem X3_single_byte_answer (b : Z) (rainPerTip : Q) :
  (0 < rainPerTip)%Q ->
  readTips [b] rainPerTip = (sentinelQ, SENTINEL).
Proof.
  intros Hr. rewrite readTips_answered.
  assert (Hneg : rawCount b [] < 0).
  { unfold rawCount. pose proof (to_uint8_range b).
    rewrite to_int16_high by lia. lia. }
  unfold clampReadings.
  rewrite Qlt_bool_true by (apply Qmult_neg_pos; assumption).
  destruct (Z.ltb_spec (rawCount b []) 0); [ reflexivity | lia ].
Qed.

Lemma X3_witness : readTips [5] (1 # 5) = (sentinelQ, SENTINEL).
Proof. apply (X3_single_byte_answer 5 (1 # 5)). reflexivity. Defined.





(** X6.  With a zero coefficient the rain reading of every answered
    request is 0 and never -9999, also when the count is negative and
    the tips reading fails. *)
Theorem X6_zero_coefficient (b : Z) (rest : list Z) (rainPerTip : Q) :
  (rainPerTip == 0)%Q ->
  (fst (readTips (b :: rest) rainPerTip) == 0)%Q /\
  fst (readTips (b :: rest) rainPerTip) <> sentinelQ.
Proof.
  intros Hr. rewrite readTips_answered. unfold clampReadings; cbn [fst].
  assert (Hz : (inject_Z (rawCount b rest) * rainPerTip == 0)%Q)
    by (apply Qmult_zero_r; exact Hr).
  rewrite Qlt_bool_false by (rewrite Hz; apply Qle_refl).
  split; [ exact Hz | ].
  apply nonneg_not_sentinel. rewrite Hz. apply Qle_refl.
Qed.

Lemma X6_witness :
  Qeq (fst (readTips [0; 128] (0 # 1))) (0 # 1) /\
  fst (readTips [0; 128] (0 # 1)) <> sentinelQ /\
  snd (readTips [0; 128] (0 # 1)) = SENTINEL.
Proof.
  destruct (X6_zero_coefficient 0 [128] (0 # 1)) as [Hz Hs]; [ reflexivity | ].
  split; [ exact Hz | split; [ exact Hs | reflexivity ] ].
Defined.

End RainCounterReadings.

Section RainCounterLocation.

Import RainCounterI2C.

Lemma parse_ofUChar (a : Z) :
  0 <= a < 256 -> WString.parseLowerHex (WString.ofUChar a 16) = Some a.
Proof.
  intros Ha. pose proof (hexRoundTrip_uint8 _ Ha) as Hrt.
  unfold hexRoundTrip in Hrt. rewrite Z2Nat.id in Hrt by lia.
  change WString.HEX with 16 in Hrt.
  destruct (WString.parseLowerHex (WString.ofUChar a 16)) as [v | ];
    [ | discriminate Hrt ].
  apply andb_true_iff in Hrt as [Hv _]. apply Z.eqb_eq in Hv. congruence.
Qed.

Lemma append_cancel_l (p a b : string) : (p ++ a = p ++ b)%string -> a = b.
Proof.
  induction p as [ | c p IH]; cbn [append]; intros H; [ exact H | ].
  injection H as H. exact (IH H).
Qed.

Lemma utoa_digits_S (fuel : nat) (val base : Z) :
  WString.utoa_digits (S fuel) val base =
    val mod base ::
    (if val / base =? 0 then [] else WString.utoa_digits fuel (val / base) base).
Proof. reflexivity. Qed.

(** X7.  Two counters have the same location string exactly when they
    have the same 8-bit address: the location identifies the device. *)
Theorem X7_location_injective (s1 s2 : t) :
  0 <= _i2cAddressHex s1 < 256 -> 0 <= _i2cAddressHex s2 < 256 ->
  (fst (getSensorLocation s1) = fst (getSensorLocation s2) <->
   _i2cAddressHex s1 = _i2cAddressHex s2).
Proof.
  intros H1 H2. unfold getSensorLocation; cbn [fst]. split.
  - intros E. apply append_cancel_l in E. change WString.HEX with 16 in E.
    pose proof (parse_ofUChar _ H1) as P1. pose proof (parse_ofUChar _ H2) as P2.
    rewrite E in P1. congruence.
  - intros E. rewrite E. reflexivity.
Qed.

Lemma X7_witness :
  fst (getSensorLocation (RainCounterI2C 2 0 0 0 8 (1 # 5))) <>
  fst (getSensorLocation (RainCounterI2C 2 0 0 0 128 (1 # 5))).
Proof.
  intros E.
  apply (X7_location_injective (RainCounterI2C 2 0 0 0 8 (1 # 5))
                               (RainCounterI2C 2 0 0 0 128 (1 # 5))) in E.
  - discriminate E.
  - vm_compute; split; [ discriminate | reflexivity ].
  - vm_compute; split; [ discriminate | reflexivity ].
Defined.

(** X8.  The address is printed without zero padding: below 16 the
    location has one hexadecimal digit after ["I2C_0x"] (7 characters),
    from 16 on it has the two digits of [address / 16] and
    [address mod 16] (8 characters). *)
Theorem X8_location_digits (s : t) :
  0 <= _i2cAddressHex s < 256 ->
  fst (getSensorLocation s) =
    String.append "I2C_0x"%string
      (if _i2cAddressHex s <? 16
       then String (WString.digitChar (_i2cAddressHex s)) EmptyString
       else String (WString.digitChar (_i2cAddressHex s / 16))
              (String (WString.digitChar (_i2cAddressHex s mod 16)) EmptyString)) /\
  String.length (fst (getSensorLocation s)) =
    (if _i2cAddressHex s <? 16 then 7%nat else 8%nat).
Proof.
  intros Ha. unfold getSensorLocation; cbn [fst].
  set (a := _i2cAddressHex s) in *.
  assert (E : WString.ofUChar a WString.HEX =
              if a <? 16 then String (WString.digitChar a) EmptyString
              else String (WString.digitChar (a / 16))
                     (String (WString.digitChar (a mod 16)) EmptyString)).
  { unfold WString.ofUChar, WString.HEX. rewrite (utoa_digits_S 7).
    destruct (Z.ltb_spec a 16) as [Hlt | Hge].
    - rewrite Z.div_small, Z.mod_small by lia. reflexivity.
    - assert (Hq : 1 <= a / 16 < 16) by (Z.div_mod_to_equations; lia).
      destruct (Z.eqb_spec (a / 16) 0) as [E0 | _]; [ lia | ].
      rewrite (utoa_digits_S 6).
      rewrite (Z.div_small (a / 16) 16), (Z.mod_small (a / 16) 16) by lia.
      reflexivity. }
  rewrite E. split; [ reflexivity | ].
  destruct (a <? 16); reflexivity.
Qed.

Lemma X8_witness :
  fst (getSensorLocation (RainCounterI2C 2 0 0 0 8 (1 # 5))) = "I2C_0x8"%string /\
  fst (getSensorLocation (RainCounterI2C 2 0 0 0 99 (1 # 5))) = "I2C_0x63"%string.
Proof.
  split.
  - apply (X8_location_digits (RainCounterI2C 2 0 0 0 8 (1 # 5))).
    vm_compute; split; [ discriminate | reflexivity ].
  - apply (X8_location_digits (RainCounterI2C 2 0 0 0 99 (1 # 5))).
    vm_compute; split; [ discriminate | reflexivity ].
Defined.

Lemma land_159_idem (st : Z) : Z.land (Z.land st 159) 159 = Z.land st 159.
Proof. rewrite <- Z.land_assoc. reflexivity. Qed.

Lemma measureAll_cons (RAIN TIPS : nat) (slave : list Z)
    (responses : list (list Z)) (s : t) :
  measureAll RAIN TIPS (slave :: responses) s =
    measureAll RAIN TIPS responses (snd (addSingleMeasurementResult RAIN TIPS slave s)).
Proof. reflexivity. Qed.

Lemma addSingleMeasurementResult_status (RAIN TIPS : nat) (slave : list Z) (s : t) :
  _sensorStatus (snd (addSingleMeasurementResult RAIN TIPS slave s)) =
    Z.land (_sensorStatus s) 159 /\
  _millisMeasurementRequested (snd (addSingleMeasurementResult RAIN TIPS slave s)) = 0 /\
  _i2cAddressHex (snd (addSingleMeasurementResult RAIN TIPS slave s)) = _i2cAddressHex s /\
  _rainPerTip (snd (addSingleMeasurementResult RAIN TIPS slave s)) = _rainPerTip s.
Proof. rewrite addSingleMeasurementResult_unfold. repeat split. Qed.

Lemma measureAll_settled (RAIN TIPS : nat) (responses : list (list Z)) (s : t) :
  Z.land (_sensorStatus s) 159 = _sensorStatus s ->
  _millisMeasurementRequested s = 0 ->
  _sensorStatus (measureAll RAIN TIPS responses s) = _sensorStatus s /\
  _millisMeasurementRequested (measureAll RAIN TIPS responses s) = 0.
Proof.
  revert s. induction responses as [ | slave responses IH]; intros s Hst Hts.
  - split; [ reflexivity | exact Hts ].
  - rewrite measureAll_cons.
    destruct (addSingleMeasurementResult_status RAIN TIPS slave s)
      as (Est & Ets & _ & _).
    destruct (IH (snd (addSingleMeasurementResult RAIN TIPS slave s))) as [IH1 IH2].
    + rewrite Est. apply land_159_idem.
    + exact Ets.
    + rewrite IH1, IH2, Est. split; [ exact Hst | reflexivity ].
Qed.

Lemma measureAll_config (RAIN TIPS : nat) (responses : list (list Z)) (s : t) :
  _i2cAddressHex (measureAll RAIN TIPS responses s) = _i2cAddressHex s /\
  _rainPerTip (measureAll RAIN TIPS responses s) = _rainPerTip s.
Proof.
  revert s. induction responses as [ | slave responses IH]; intros s.
  - split; reflexivity.
  - rewrite measureAll_cons.
    destruct (addSingleMeasurementResult_status RAIN TIPS slave s)
      as (_ & _ & Eaddr & Erain).
    destruct (IH (snd (addSingleMeasurementResult RAIN TIPS slave s))) as [IH1 IH2].
    rewrite IH1, IH2. split; assumption.
Qed.

(** X9.  Any number of measurement calls, whatever the slave answers to
    each: after the first one the status stays [status & 0b10011111] and
    the timestamp stays 0 (the clearing is idempotent), and the address,
    the coefficient and therefore the location string never change. *)
Theorem X9_repeated_measurements
    (RAIN TIPS : nat) (responses : list (list Z)) (s : t) :
  responses <> [] ->
  _sensorStatus (measureAll RAIN TIPS responses s) = Z.land (_sensorStatus s) 159 /\
  _millisMeasurementRequested (measureAll RAIN TIPS responses s) = 0 /\
  _rainPerTip (measureAll RAIN TIPS responses s) = _rainPerTip s /\
  fst (getSensorLocation (measureAll RAIN TIPS responses s)) =
    fst (getSensorLocation s).
Proof.
  intros Hne.
  destruct (measureAll_config RAIN TIPS responses s) as [Haddr Hrain].
  destruct responses as [ | slave responses]; [ contradiction | ].
  destruct (addSingleMeasurementResult_status RAIN TIPS slave s)
    as (Est & Ets & _ & _).
  destruct (measureAll_settled RAIN TIPS responses
              (snd (addSingleMeasurementResult RAIN TIPS slave s))) as [H1 H2];
    [ rewrite Est; apply land_159_idem | exact Ets | ].
  rewrite measureAll_cons in *.
  split; [ rewrite H1; exact Est | ].
  split; [ exact H2 | ].
  split; [ exact Hrain | ].
  unfold getSensorLocation; cbn [fst]. rewrite Haddr. reflexivity.
Qed.

Lemma X9_witness :
  _sensorStatus
    (measureAll 0 1 [[5; 0]; []; [0; 128]]
       (mk "RainCounterI2C" 2 0 0 0 (-1) (-1) 1 255 1000
           (Readings.clearValues 2) 99 (1 # 5))) = 159 /\
  fst (getSensorLocation
         (measureAll 0 1 [[5; 0]; []; [0; 128]]
            (mk "RainCounterI2C" 2 0 0 0 (-1) (-1) 1 255 1000
                (Readings.clearValues 2) 99 (1 # 5)))) = "I2C_0x63"%string.
Proof.
  destruct (X9_repeated_measurements 0 1 [[5; 0]; []; [0; 128]]
              (mk "RainCounterI2C" 2 0 0 0 (-1) (-1) 1 255 1000
                  (Readings.clearValues 2) 99 (1 # 5)))
    as (Hst & _ & _ & Hloc); [ discriminate | ].
  split; [ exact Hst | exact Hloc ].
Defined.

(** X10.  Every state reached from the constructor by measurement calls
    has an address within 0..255, the constructor's argument reduced to
    a [uint8_t], so its location is ["I2C_0x"] followed by hexadecimal
    digits that read back as that address. *)
Theorem X10_reachable_address
    (NUM : nat) (WARM STAB MEAS : Z) (RAIN TIPS : nat)
    (i2cAddressHex : Z) (rainPerTip : Q) (responses : list (list Z)) :
  let s := measureAll RAIN TIPS responses
             (RainCounterI2C NUM WARM STAB MEAS i2cAddressHex rainPerTip) in
  _i2cAddressHex s = i2cAddressHex mod 256 /\
  0 <= _i2cAddressHex s < 256 /\
  exists hex,
    fst (getSensorLocation s) = String.append "I2C_0x"%string hex /\
    WString.parseLowerHex hex = Some (i2cAddressHex mod 256).
Proof.
  intros s.
  destruct (measureAll_config RAIN TIPS responses
              (RainCounterI2C NUM WARM STAB MEAS i2cAddressHex rainPerTip))
    as [Haddr _].
  fold s in Haddr. cbn [RainCounterI2C _i2cAddressHex] in Haddr.
  unfold to_uint8 in Haddr.
  assert (Hrange : 0 <= i2cAddressHex mod 256 < 256)
    by (apply Z.mod_pos_bound; lia).
  split; [ exact Haddr | split; [ rewrite Haddr; exact Hrange | ] ].
  exists (WString.ofUChar (i2cAddressHex mod 256) 16).
  split.
  - unfold getSensorLocation; cbn [fst]. rewrite Haddr. reflexivity.
  - apply parse_ofUChar. exact Hrange.
Qed.

End RainCounterLocation.

(** * Further properties of the Decagon CTD header *)

Section DecagonCTDHeader.

Import VariableBase.

(** X11.  The three variable classes of the CTD read three different
    slots, all below the number of values the sensor is constructed
    with, whatever the arguments; the constructor without a parent
    describes the same slot, resolution, name, unit and default code as
    the one with a parent. *)
Theorem X11_ctd_variable_slots
    (SDI12address : ascii) (powerPin dataPin : Z) (measurementsToAverage : nat)
    (parentSense : nat) (uuid varCode : string) :
  let n := Lifecycle.numReturnedValues
             (DecagonCTD.DecagonCTD SDI12address powerPin dataPin
                measurementsToAverage) in
  let cond := DecagonCTD_Cond parentSense uuid varCode in
  let temp := DecagonCTD_Temp parentSense uuid varCode in
  let depth := DecagonCTD_Depth parentSense uuid varCode in
  (variableIndex cond < n)%nat /\
  (variableIndex temp < n)%nat /\
  (variableIndex depth < n)%nat /\
  variableIndex cond <> variableIndex temp /\
  variableIndex cond <> variableIndex depth /\
  variableIndex temp <> variableIndex depth /\
  (variableIndex DecagonCTD_Cond_default, resolution DecagonCTD_Cond_default,
   name DecagonCTD_Cond_default, unit DecagonCTD_Cond_default)
  = (variableIndex cond, resolution cond, name cond, unit cond) /\
  (variableIndex DecagonCTD_Temp_default, resolution DecagonCTD_Temp_default,
   name DecagonCTD_Temp_default, unit DecagonCTD_Temp_default)
  = (variableIndex temp, resolution temp, name temp, unit temp) /\
  (variableIndex DecagonCTD_Depth_default, resolution DecagonCTD_Depth_default,
   name DecagonCTD_Depth_default, unit DecagonCTD_Depth_default)
  = (variableIndex depth, resolution depth, name depth, unit depth).
Proof.
  cbv zeta. cbn.
  unfold DecagonCTD.CTD_NUM_VARIABLES, DecagonCTD.CTD_COND_VAR_NUM,
    DecagonCTD.CTD_TEMP_VAR_NUM, DecagonCTD.CTD_DEPTH_VAR_NUM.
  repeat split; (lia || discriminate).
Qed.

End DecagonCTDHeader.
